(** * Pretty_LLDB: the summary providers of [LLDB_Formatters/linear.py]

    A shallow embedding of the two registered summary providers of
    [linear.py] ([linear_container_summary_provider] for lists, stacks and
    queues, [vector_summary_provider] for [std::vector]) and of the helper
    [_extract_vector_end_cap_pointer], followed by the properties of the
    reconstruction of size, capacity and element window. *)

From Stdlib Require Import ZArith String Ascii List Bool Lia.
From Stdlib Require Import DecimalString HexadecimalString.
From stdpp Require Import base option list strings gmap.

Local Open Scope string_scope.
Local Open Scope Z_scope.

(** ** The debugger's values, as the providers see them *)

(** [lldb.SBType]: enough of a type descriptor for [IsPointerType],
    [GetPointeeType], [GetByteSize] and the truth value of a type object. *)
Inductive SBType : Type :=
| TInvalid : SBType
| TData (byte_size : Z) : SBType
| TPointer (pointee : SBType) : SBType.

Module SBTypeAPI.

Definition IsValid (t : SBType) : bool :=
  match t with TInvalid => false | _ => true end.

Definition IsPointerType (t : SBType) : bool :=
  match t with TPointer _ => true | _ => false end.

Definition GetPointeeType (t : SBType) : SBType :=
  match t with TPointer p => p | _ => TInvalid end.

(** Pointers of the inspected 64-bit process are eight bytes wide. *)
Definition GetByteSize (t : SBType) : Z :=
  match t with TInvalid => 0 | TData n => n | TPointer _ => 8 end.

End SBTypeAPI.

(** [lldb.SBValue]: validity, declared type, the unsigned content and the
    named children in declaration order. *)
#[warnings="-register-all"] Inductive SBValue : Type :=
  mkSBValue {
      IsValid : bool;
      GetType : SBType;
      GetValueAsUnsigned : Z;
      children : list (string * SBValue) }.

Definition invalid_value : SBValue := mkSBValue false TInvalid 0 [].

(** [SBValue.GetChildMemberWithName]: the first child of that name, an
    invalid value when there is none. *)
Fixpoint lookup_member (name : string) (cs : list (string * SBValue)) : SBValue :=
  match cs with
  | [] => invalid_value
  | (n, c) :: rest => if String.eqb n name then c else lookup_member name rest
  end.

Definition GetChildMemberWithName (v : SBValue) (name : string) : SBValue :=
  lookup_member name (children v).

Definition GetNumChildren (v : SBValue) : nat := List.length (children v).

(** [SBValue.GetChildAtIndex]: an invalid value out of range. *)
Definition GetChildAtIndex (v : SBValue) (i : nat) : SBValue :=
  match children v !! i with
  | Some (_, c) => c
  | None => invalid_value
  end.


(** Modelled from the spec: [helpers.get_child_member_by_names] is not part of
    the sources at hand. The spec's [resolveField] tries each name in order
    against the value's declared children and returns the first structurally
    present and valid child; absence is [None]. *)
Fixpoint get_child_member_by_names (v : SBValue) (names : list string)
  : option SBValue :=
  match names with
  | [] => None
  | name :: rest =>
      let child := GetChildMemberWithName v name in
      if IsValid child then Some child
      else get_child_member_by_names v rest
  end.

(** ** [_extract_vector_end_cap_pointer] *)

Definition wrapper_names : list string :=
  ["__value_"; "__first_"; "first"; "__value"; "__first"].

Definition is_pointer (v : SBValue) : bool :=
  SBTypeAPI.IsPointerType (GetType v).

(** The first loop, lines 103-112: one name after the other. *)
Fixpoint probe_wrappers (end_cap_value : SBValue) (names : list string)
  : option SBValue :=
  match names with
  | [] => None
  | name :: rest =>
      let child := GetChildMemberWithName end_cap_value name in
      if IsValid child then
        if is_pointer child then Some child
        else
          let nested := get_child_member_by_names child wrapper_names in
          match nested with
          | Some n =>
              if IsValid n && is_pointer n then Some n
              else probe_wrappers end_cap_value rest
          | None => probe_wrappers end_cap_value rest
          end
      else probe_wrappers end_cap_value rest
  end.

(** The second loop, lines 114-117, over [range(GetNumChildren())]. *)
Fixpoint scan_children (end_cap_value : SBValue) (indices : list nat)
  : option SBValue :=
  match indices with
  | [] => None
  | i :: rest =>
      let child := GetChildAtIndex end_cap_value i in
      if IsValid child && is_pointer child then Some child
      else scan_children end_cap_value rest
  end.

Definition _extract_vector_end_cap_pointer (end_cap_value : option SBValue)
  : option SBValue :=
  match end_cap_value with
  | None => None
  | Some v =>
      if negb (IsValid v) then None
      else if is_pointer v then Some v
      else
        match probe_wrappers v wrapper_names with
        | Some p => Some p
        | None => scan_children v (seq 0 (GetNumChildren v))
        end
  end.

(** ** Python's exceptions, integers and strings *)

Inductive exn : Type := ZeroDivisionError | HostError.

Inductive py (A : Type) : Type :=
| Return (a : A)
| Raise (e : exn).

Arguments Return {A} a.
Arguments Raise {A} e.

Definition py_bind {A B : Type} (c : py A) (k : A -> py B) : py B :=
  match c with
  | Return a => k a
  | Raise e => Raise e
  end.

Notation "x <- c ;; k" := (py_bind c (fun x => k))
  (at level 100, c at next level, right associativity).

(** [a // b]: floor division, [ZeroDivisionError] on a zero divisor. *)
Definition floordiv (a b : Z) : py Z :=
  if b =? 0 then Raise ZeroDivisionError else Return (a / b).

(** Truth value of an integer. *)
Definition nonzero (z : Z) : bool := negb (z =? 0).

(** [str(n)] and [format(n, "x")] of an integer. *)
Definition str (z : Z) : string :=
  DecimalString.NilZero.string_of_int (Z.to_int z).

Definition hex (z : Z) : string :=
  HexadecimalString.NilZero.string_of_int (Z.to_hex_int z).

Definition nonempty (s : string) : bool :=
  match s with EmptyString => false | String _ _ => true end.

(** [s.startswith(p)]. *)
Definition startswith (s p : string) : bool := String.prefix p s.

(** The characters [str.strip()] removes: tab to carriage return, the four
    separators 28-31 and the space. *)
Definition is_space (c : ascii) : bool :=
  let n := nat_of_ascii c in
  ((9 <=? n) && (n <=? 13) || (28 <=? n) && (n <=? 32))%nat.

Fixpoint lstrip (s : string) : string :=
  match s with
  | String c rest => if is_space c then lstrip rest else s
  | EmptyString => EmptyString
  end.

Definition strip (s : string) : string :=
  String.rev (lstrip (String.rev (lstrip s))).

(** [range(n)] for an integer [n]: empty when [n <= 0]. *)
Definition range (n : Z) : list Z := map Z.of_nat (seq 0 (Z.to_nat n)).

(** ** What the providers take from the host and from [helpers.py] *)

(** The rest of the package and the debugger session: [helpers.Colors],
    [helpers.should_use_colors], [helpers.g_config], [helpers.get_raw_pointer],
    [helpers.get_value_summary], [strategies.LinearTraversalStrategy.traverse]
    and [SBValue.CreateValueFromAddress], which reads the inspected process
    and may raise. *)
Class Host : Type := {
  should_use_colors : bool;
  summary_max_items : Z;
  Colors_GREEN : string;
  Colors_RESET : string;
  Colors_YELLOW : string;
  Colors_BOLD_CYAN : string;
  Colors_RED : string;
  get_raw_pointer : SBValue -> Z;
  get_value_summary : option SBValue -> string;
  traverse : SBValue -> Z -> list string * gmap string bool;
  CreateValueFromAddress : SBValue -> string -> Z -> SBType -> py SBValue }.

Section Providers.

Context {H : Host}.

Definition color (c : string) : string := if should_use_colors then c else "".

(** ** [linear_container_summary_provider] *)

Definition linear_error : string := "Error: Could not find head pointer member.".

Definition linear_container_summary_provider (valobj : SBValue) : string :=
  let head_ptr := get_child_member_by_names valobj ["head"; "m_head"; "_head"; "top"] in
  match head_ptr with
  | None => linear_error
  | Some head =>
      if negb (IsValid head) then linear_error
      else if get_raw_pointer head =? 0 then "size = 0, []"
      else
        let '(values, metadata) := traverse head summary_max_items in
        let C_GREEN := color Colors_GREEN in
        let C_RESET := color Colors_RESET in
        let C_YELLOW := color Colors_YELLOW in
        let C_BOLD_CYAN := color Colors_BOLD_CYAN in
        let C_RED := color Colors_RED in
        let size_member :=
          get_child_member_by_names valobj ["count"; "size"; "m_size"; "_size"] in
        let size_str :=
          match size_member with
          | Some m =>
              if IsValid m then "size = " +:+ str (GetValueAsUnsigned m) else ""
          | None => ""
          end in
        let colored_values :=
          map (fun v => if startswith v "[" then C_RED +:+ v +:+ C_RESET
                        else C_YELLOW +:+ v +:+ C_RESET) values in
        let separator :=
          if default false (metadata !! "doubly_linked")
          then " " +:+ C_BOLD_CYAN +:+ "<->" +:+ C_RESET +:+ " "
          else " " +:+ C_BOLD_CYAN +:+ "->" +:+ C_RESET +:+ " " in
        let summary_str := String.concat separator colored_values in
        let summary_str :=
          if default false (metadata !! "truncated")
          then summary_str +:+ " " +:+ strip separator +:+ " ..."
          else summary_str in
        C_GREEN +:+ size_str +:+ C_RESET +:+ ", [" +:+ summary_str +:+ "]"
  end.


(** ** [vector_summary_provider] *)

Definition vector_error : string :=
  "Error: Could not locate vector storage pointers.".

(** The local variables of [vector_summary_provider] after line 177. *)
Record vector_frame : Type := {
  begin_addr : Z;
  end_addr : Z;
  elem_type : option SBType;
  element_size : Z;
  size : Z;
  capacity : option Z;
  values : list string;
  truncated : bool }.

(** Lines 146-151. *)
Definition element_type_and_size (begin_ptr : SBValue) : option SBType * Z :=
  if is_pointer begin_ptr then
    let elem_type := SBTypeAPI.GetPointeeType (GetType begin_ptr) in
    if SBTypeAPI.IsValid elem_type
    then (Some elem_type, SBTypeAPI.GetByteSize elem_type)
    else (Some elem_type, 0)
  else (None, 0).

(** Lines 168-176, one round of the loop: the value appended for index [i]. *)
Definition element_summary (valobj : SBValue) (begin_addr element_size : Z)
    (elem_type : SBType) (i : Z) : string :=
  let element_addr := begin_addr + i * element_size in
  let element_val :=
    match CreateValueFromAddress valobj ("[" +:+ str i +:+ "]") element_addr elem_type with
    | Return v => Some v
    | Raise _ => None
    end in
  get_value_summary element_val.

(** Lines 163-177: the previewed values and the truncation flag. *)
Definition element_window (valobj : SBValue) (begin_addr element_size : Z)
    (elem_type : option SBType) (size : Z) : list string * bool :=
  match elem_type with
  | Some t =>
      if (size >? 0) && (element_size >? 0) && SBTypeAPI.IsValid t then
        let max_items := summary_max_items in
        let show_count := Z.min size max_items in
        (map (element_summary valobj begin_addr element_size t) (range show_count),
         size >? max_items)
      else ([], false)
  | None => ([], false)
  end.

(** Lines 143-177. *)
Definition vector_frame_of (valobj begin_ptr end_ptr : SBValue)
    (end_cap_ptr : option SBValue) : py vector_frame :=
  let begin_addr := get_raw_pointer begin_ptr in
  let end_addr := get_raw_pointer end_ptr in
  let '(elem_type, element_size) := element_type_and_size begin_ptr in
  size <- (if nonzero begin_addr && nonzero end_addr && (element_size >? 0)
              && (end_addr >=? begin_addr)
           then floordiv (end_addr - begin_addr) element_size
           else Return 0) ;;
  capacity <- (match end_cap_ptr with
               | Some p =>
                   if IsValid p then
                     let end_cap_addr := get_raw_pointer p in
                     if nonzero end_cap_addr && (element_size >? 0)
                        && (end_cap_addr >=? begin_addr)
                     then c <- floordiv (end_cap_addr - begin_addr) element_size ;;
                          Return (Some c)
                     else Return None
                   else Return None
               | None => Return None
               end) ;;
  let '(values, truncated) :=
    element_window valobj begin_addr element_size elem_type size in
  Return {| begin_addr := begin_addr; end_addr := end_addr;
            elem_type := elem_type; element_size := element_size;
            size := size; capacity := capacity;
            values := values; truncated := truncated |}.

Definition nonempty_list {A : Type} (l : list A) : bool :=
  match l with [] => false | _ :: _ => true end.

(** Lines 179-203. *)
Definition vector_render (f : vector_frame) : string :=
  let C_GREEN := color Colors_GREEN in
  let C_RESET := color Colors_RESET in
  let C_YELLOW := color Colors_YELLOW in
  let C_RED := color Colors_RED in
  let colored_values :=
    map (fun value => if nonempty value && startswith value "["
                      then C_RED +:+ value +:+ C_RESET
                      else C_YELLOW +:+ value +:+ C_RESET) (values f) in
  let elements_str :=
    if size f =? 0 then ""
    else if nonempty_list (values f) then String.concat ", " colored_values
    else C_RED +:+ "[unavailable]" +:+ C_RESET in
  let elements_str :=
    if truncated f
    then (if nonempty elements_str then elements_str +:+ ", ..." else "...")
    else elements_str in
  let size_str := "size = " +:+ str (size f) in
  let capacity_str :=
    match capacity f with
    | Some c => "capacity = " +:+ str c
    | None => "capacity = ?"
    end in
  let data_str :=
    if nonzero (begin_addr f) then "data = 0x" +:+ hex (begin_addr f)
    else "data = null" in
  C_GREEN +:+ size_str +:+ C_RESET +:+ ", " +:+ C_GREEN +:+ capacity_str +:+ C_RESET
    +:+ ", " +:+ C_GREEN +:+ data_str +:+ C_RESET +:+ ", [" +:+ elements_str +:+ "]".

Definition vector_summary_provider (valobj : SBValue) : py string :=
  let begin_ptr := get_child_member_by_names valobj ["__begin_"; "__begin"] in
  let end_ptr := get_child_member_by_names valobj ["__end_"; "__end"] in
  let end_cap_raw := get_child_member_by_names valobj ["__end_cap_"; "__end_cap"] in
  let end_cap_ptr := _extract_vector_end_cap_pointer end_cap_raw in
  match begin_ptr, end_ptr with
  | Some b, Some e =>
      if negb (IsValid b) || negb (IsValid e) then Return vector_error
      else
        f <- vector_frame_of valobj b e end_cap_ptr ;;
        Return (vector_render f)
  | _, _ => Return vector_error
  end.

(** The address the recovered capacity pointer reads as, when one was
    recovered (line 158-159). *)
Definition recovered_address (end_cap_ptr : option SBValue) : option Z :=
  match end_cap_ptr with
  | Some p => if IsValid p then Some (get_raw_pointer p) else None
  | None => None
  end.

End Providers.

(** ** The providers' arithmetic, in closed form *)

(** Line 154-155: the value of [size]. *)
Definition logical_length (begin_addr end_addr element_size : Z) : Z :=
  if nonzero begin_addr && nonzero end_addr && (element_size >? 0)
     && (end_addr >=? begin_addr)
  then (end_addr - begin_addr) / element_size
  else 0.

(** Lines 157-161: the value of [capacity], from the address the recovered
    capacity pointer reads as ([None] when no pointer was recovered). *)
Definition reported_capacity (end_cap_addr : option Z)
    (begin_addr element_size : Z) : option Z :=
  match end_cap_addr with
  | Some a =>
      if nonzero a && (element_size >? 0) && (a >=? begin_addr)
      then Some ((a - begin_addr) / element_size)
      else None
  | None => None
  end.

(** ** The capacity unwrap as an ordered list of strategies *)

(** The first strategy of a list that succeeds. *)
Fixpoint first_success {A B : Type} (strategies : list (A -> option B)) (a : A)
  : option B :=
  match strategies with
  | [] => None
  | s :: rest =>
      match s a with
      | Some b => Some b
      | None => first_success rest a
      end
  end.

(** The candidate itself, when pointer-typed. *)
Definition direct_pointer (v : SBValue) : option SBValue :=
  if is_pointer v then Some v else None.

(** One wrapper name, one level deep: the child of that name, when valid and
    pointer-typed. *)
Definition one_level (name : string) (v : SBValue) : option SBValue :=
  let child := GetChildMemberWithName v name in
  if IsValid child && is_pointer child then Some child else None.

(** One wrapper name, two levels deep: below the valid child of that name, the
    first valid wrapper-named child, when pointer-typed. *)
Definition two_levels (name : string) (v : SBValue) : option SBValue :=
  let child := GetChildMemberWithName v name in
  if IsValid child then
    match get_child_member_by_names child wrapper_names with
    | Some n => if is_pointer n then Some n else None
    | None => None
    end
  else None.

(** All structural children in declaration order, the first valid
    pointer-typed one. *)
Definition first_pointer_child (v : SBValue) : option SBValue :=
  snd <$> List.find (fun nc => IsValid (snd nc) && is_pointer (snd nc)) (children v).

(** The four stages in the order of the specification's sentence: the
    candidate itself; every wrapper name one level deep; every wrapper name
    two levels deep; the scan of all children. *)
Definition staged_unwrap (end_cap_value : option SBValue) : option SBValue :=
  match end_cap_value with
  | None => None
  | Some v =>
      if IsValid v then
        first_success
          ([direct_pointer]
             ++ map one_level wrapper_names
             ++ map two_levels wrapper_names
             ++ [first_pointer_child]) v
      else None
  end.

(** The order the loop of lines 103-112 follows: each wrapper name is tried
    one level deep and then two levels deep before the next name. *)
Definition per_name (name : string) : list (SBValue -> option SBValue) :=
  [one_level name; two_levels name].

Definition interleaved_unwrap (end_cap_value : option SBValue) : option SBValue :=
  match end_cap_value with
  | None => None
  | Some v =>
      if IsValid v then
        first_success
          ([direct_pointer]
             ++ concat (map per_name wrapper_names)
             ++ [first_pointer_child]) v
      else None
  end.

(** ** The shape of a summary *)

Fixpoint last_char (s : string) : option ascii :=
  match s with
  | EmptyString => None
  | String c EmptyString => Some c
  | String _ rest => last_char rest
  end.

(** Every summary closes its element list with a bracket; the two error
    lines end in a full stop. *)
Definition is_summary (s : string) : Prop := last_char s = Some "]"%char.

(** The three boundary members as [vector_summary_provider] resolves them
    (lines 135-138). *)
Abbreviation begin_of valobj :=
  (get_child_member_by_names valobj ["__begin_"; "__begin"]).
Abbreviation end_of valobj :=
  (get_child_member_by_names valobj ["__end_"; "__end"]).
Abbreviation end_cap_of valobj :=
  (_extract_vector_end_cap_pointer
     (get_child_member_by_names valobj ["__end_cap_"; "__end_cap"])).
Abbreviation head_of valobj :=
  (get_child_member_by_names valobj ["head"; "m_head"; "_head"; "top"]).

(** ** A recorded debugger session, for concrete runs *)

Module Demo.

Definition int_t : SBType := TData 4.
Definition int_ptr_t : SBType := TPointer int_t.

Definition int_ptr (addr : Z) : SBValue := mkSBValue true int_ptr_t addr [].

Definition record (fields : list (string * SBValue)) : SBValue :=
  mkSBValue true (TData 24) 0 fields.

Definition esc (code : string) : string := String (ascii_of_nat 27) code.

(** Modelled from the spec: [helpers.get_raw_pointer] is not part of the
    sources at hand. The spec's [readPointer] returns 0 if the handle is
    invalid or not a pointer-shaped value, the address otherwise. *)
Definition read_pointer (v : SBValue) : Z :=
  if IsValid v && is_pointer v then GetValueAsUnsigned v else 0.

(** Modelled from the spec: [helpers.get_value_summary] is not part of the
    sources at hand. The spec's [renderScalar] gives the textual rendering of
    a leaf value, or a bracketed error marker when rendering is impossible. *)
Definition render_scalar (o : option SBValue) : string :=
  match o with
  | Some v => if IsValid v then str (GetValueAsUnsigned v) else "[unavailable]"
  | None => "[unavailable]"
  end.

(** The inspected memory: the forty bytes from [0x1000] hold the [int]s
    0, 10, 20, ..., 90, except that the word at [0x1008] cannot be fetched;
    any other address makes the debugger raise. *)
Definition create_value (base : SBValue) (label : string) (addr : Z)
    (t : SBType) : py SBValue :=
  if (4096 <=? addr) && (addr <? 4136) then
    if addr =? 4104 then Return invalid_value
    else Return (mkSBValue true t ((addr - 4096) / 4 * 10) [])
  else Raise HostError.

(** A list walk that answers with the three payloads 1, 2, 3. *)
Definition walk (head : SBValue) (max_items : Z) : list string * gmap string bool :=
  (["1"; "2"; "3"], ∅).

Definition host (max_items : Z) : Host := {|
  should_use_colors := false;
  summary_max_items := max_items;
  Colors_GREEN := esc "[32m";
  Colors_RESET := esc "[0m";
  Colors_YELLOW := esc "[33m";
  Colors_BOLD_CYAN := esc "[1;36m";
  Colors_RED := esc "[31m";
  get_raw_pointer := read_pointer;
  get_value_summary := render_scalar;
  traverse := walk;
  CreateValueFromAddress := create_value |}.

(** [std::vector<int>] with the three boundary members. *)
Definition vector (b e c : SBValue) : SBValue :=
  record [("__begin_", b); ("__end_", e); ("__end_cap_", c)].

(** libc++'s compressed pair around the capacity pointer. *)
Definition compressed_pair (p : SBValue) : SBValue :=
  record [("__value_", p)].

Definition linked_list (head : SBValue) (n : Z) : SBValue :=
  record [("head", head); ("size", mkSBValue true (TData 8) n [])].

(** A capacity member carrying a pointer one level deep under [__first_]
    and another two levels deep under [__value_]. *)
Definition two_pointers : SBValue :=
  record [("__value_", compressed_pair (int_ptr 8240)); ("__first_", int_ptr 8216)].

(** A capacity member whose pointer sits under names that are no wrapper
    names. *)
Definition plain_record : SBValue :=
  record [("padding", mkSBValue true (TData 8) 0 []); ("limit", int_ptr 8240)].

(** A vector whose storage starts at the null address but whose end pointer
    does not. *)
Definition null_begin_vector : SBValue :=
  vector (int_ptr 0) (int_ptr 8) (int_ptr 0).

(** A default-constructed vector: the three boundary pointers are null. *)
Definition empty_vector : SBValue :=
  vector (int_ptr 0) (int_ptr 0) (int_ptr 0).

(** A layout that exposes [__begin_] but no end member. *)
Definition begin_only : SBValue := record [("__begin_", int_ptr 4096)].

(** Ten [int]s from [0x1000], room for sixteen. *)
Definition ten_ints : SBValue :=
  vector (int_ptr 4096) (int_ptr 4136) (int_ptr 4160).

(** Twelve [int]s from [0x1000]: the last two lie beyond the readable
    bytes. *)
Definition twelve_ints : SBValue :=
  vector (int_ptr 4096) (int_ptr 4144) (int_ptr 4160).

(** A list, stack or queue whose head pointer is null. *)
Definition empty_list : SBValue := linked_list (int_ptr 0) 0.

(** The frames the provider builds for [ten_ints] and [twelve_ints] under
    an item cap. *)
Definition ten_frame (max_items : Z) : py vector_frame :=
  vector_frame_of (H := host max_items) ten_ints
    (int_ptr 4096) (int_ptr 4136) (Some (int_ptr 4160)).

Definition twelve_frame (max_items : Z) : py vector_frame :=
  vector_frame_of (H := host max_items) twelve_ints
    (int_ptr 4096) (int_ptr 4144) (Some (int_ptr 4160)).

(** A vector whose begin member is an integer, not a pointer. *)
Definition untyped_begin : SBValue :=
  vector (mkSBValue true (TData 8) 4096 []) (int_ptr 4136) (int_ptr 4160).

End Demo.

(** Spec scenario: begin [0x1000], ten elements of four bytes. *)
Example vector_of_ten :
  vector_summary_provider (H := Demo.host 30)
    (Demo.vector (Demo.int_ptr 4096) (Demo.int_ptr 4136) (Demo.int_ptr 4160))
  = Return "size = 10, capacity = 16, data = 0x1000, [0, 10, [unavailable], 30, 40, 50, 60, 70, 80, 90]".
Proof. vm_compute. reflexivity. Qed.

Example vector_of_ten_cap_three :
  vector_summary_provider (H := Demo.host 3)
    (Demo.vector (Demo.int_ptr 4096) (Demo.int_ptr 4136)
       (Demo.compressed_pair (Demo.compressed_pair (Demo.int_ptr 4160))))
  = Return "size = 10, capacity = 16, data = 0x1000, [0, 10, [unavailable], ...]".
Proof. vm_compute. reflexivity. Qed.

Example vector_reversed :
  vector_summary_provider (H := Demo.host 30)
    (Demo.vector (Demo.int_ptr 4136) (Demo.int_ptr 4096) (Demo.int_ptr 4160))
  = Return "size = 0, capacity = 6, data = 0x1028, []".
Proof. vm_compute. reflexivity. Qed.

Example list_of_three :
  linear_container_summary_provider (H := Demo.host 30)
    (Demo.linked_list (Demo.int_ptr 8192) 3)
  = "size = 3, [1 -> 2 -> 3]".
Proof. vm_compute. reflexivity. Qed.

(** ** Field resolution and the capacity unwrap *)

Lemma get_child_member_by_names_valid (v : SBValue) (names : list string) (c : SBValue) :
  get_child_member_by_names v names = Some c -> IsValid c = true.
Proof.
  induction names as [|name rest IH]; simpl; [discriminate|].
  destruct (IsValid (GetChildMemberWithName v name)) eqn:Hv; [|exact IH].
  intros [= <-]. exact Hv.
Qed.

Lemma first_success_app {A B : Type} (l1 l2 : list (A -> option B)) (a : A) :
  first_success (l1 ++ l2) a =
  match first_success l1 a with
  | Some b => Some b
  | None => first_success l2 a
  end.
Proof.
  induction l1 as [|s l1 IH]; simpl; [reflexivity|].
  destruct (s a); [reflexivity | exact IH].
Qed.

Lemma probe_wrappers_per_name (v : SBValue) (names : list string) :
  probe_wrappers v names = first_success (concat (map per_name names)) v.
Proof.
  induction names as [|name rest IH]; [reflexivity|].
  cbn [probe_wrappers map concat per_name app first_success].
  unfold one_level, two_levels.
  destruct (IsValid (GetChildMemberWithName v name)) eqn:Hc;
    cbn [andb]; [|exact IH].
  destruct (is_pointer (GetChildMemberWithName v name)) eqn:Hp; [reflexivity|].
  destruct (get_child_member_by_names (GetChildMemberWithName v name) wrapper_names)
    as [n|] eqn:Hn; [|exact IH].
  rewrite (get_child_member_by_names_valid _ _ _ Hn). cbn [andb].
  destruct (is_pointer n); [reflexivity | exact IH].
Qed.

Lemma scan_children_find (v : SBValue) :
  forall rest pre : list (string * SBValue),
    children v = (pre ++ rest)%list ->
    scan_children v (seq (List.length pre) (List.length rest)) =
    snd <$> List.find (fun nc => IsValid (snd nc) && is_pointer (snd nc)) rest.
Proof.
  induction rest as [|[n c] rest IH]; intros pre Hch; simpl; [reflexivity|].
  unfold GetChildAtIndex. rewrite Hch, list_lookup_middle by reflexivity.
  destruct (IsValid c && is_pointer c); [reflexivity|].
  specialize (IH (pre ++ [(n, c)])%list).
  rewrite length_app, Nat.add_1_r in IH. apply IH.
  rewrite <- app_assoc. exact Hch.
Qed.

Lemma scan_children_all (v : SBValue) :
  scan_children v (seq 0 (GetNumChildren v)) = first_pointer_child v.
Proof. exact (scan_children_find v (children v) [] eq_refl). Qed.

Lemma first_pointer_child_sound (v p : SBValue) :
  first_pointer_child v = Some p -> IsValid p = true /\ is_pointer p = true.
Proof.
  unfold first_pointer_child.
  destruct (List.find _ (children v)) as [[n c]|] eqn:Hf; [|discriminate].
  intros [= <-]. apply find_some in Hf as [_ Hf]. simpl in Hf.
  apply andb_true_iff in Hf. exact Hf.
Qed.

Lemma per_name_sound (v p : SBValue) (names : list string) :
  first_success (concat (map per_name names)) v = Some p ->
  IsValid p = true /\ is_pointer p = true.
Proof.
  induction names as [|name rest IH]; [discriminate|].
  cbn [map concat per_name app first_success].
  unfold one_level, two_levels.
  destruct (IsValid (GetChildMemberWithName v name)) eqn:Hc;
    cbn [andb]; [|exact IH].
  destruct (is_pointer (GetChildMemberWithName v name)) eqn:Hp.
  - intros [= <-]. split; assumption.
  - destruct (get_child_member_by_names (GetChildMemberWithName v name) wrapper_names)
      as [n|] eqn:Hn; [|exact IH].
    destruct (is_pointer n) eqn:Hq; [|exact IH].
    intros [= <-]. split; [|exact Hq].
    exact (get_child_member_by_names_valid _ _ _ Hn).
Qed.

Lemma extract_interleaved (end_cap_value : option SBValue) :
  _extract_vector_end_cap_pointer end_cap_value = interleaved_unwrap end_cap_value.
Proof.
  destruct end_cap_value as [v|]; [|reflexivity].
  unfold _extract_vector_end_cap_pointer, interleaved_unwrap.
  destruct (IsValid v); cbn [negb]; [|reflexivity].
  rewrite !first_success_app. cbn [first_success]. unfold direct_pointer.
  destruct (is_pointer v); [reflexivity|].
  rewrite probe_wrappers_per_name, scan_children_all.
  destruct (first_success (concat (map per_name wrapper_names)) v); [reflexivity|].
  destruct (first_pointer_child v); reflexivity.
Qed.

Lemma extract_sound (end_cap_value : option SBValue) (p : SBValue) :
  _extract_vector_end_cap_pointer end_cap_value = Some p ->
  IsValid p = true /\ is_pointer p = true.
Proof.
  rewrite extract_interleaved.
  destruct end_cap_value as [v|]; cbn [interleaved_unwrap]; [|discriminate].
  destruct (IsValid v) eqn:Hv; [|discriminate].
  rewrite !first_success_app. cbn [first_success]. unfold direct_pointer.
  destruct (is_pointer v) eqn:Hp; [intros [= <-]; split; assumption|].
  destruct (first_success (concat (map per_name wrapper_names)) v) as [q|] eqn:Hq;
    [intros [= <-]; exact (per_name_sound _ _ _ Hq)|].
  destruct (first_pointer_child v) as [r|] eqn:Hr; [|discriminate].
  intros [= <-]. exact (first_pointer_child_sound _ _ Hr).
Qed.

(** ** The order of the capacity unwrap (C3) *)

(** Spec scenario E: the capacity pointer two levels deep. *)
Example unwrap_two_levels :
  _extract_vector_end_cap_pointer
    (Some (Demo.compressed_pair (Demo.compressed_pair (Demo.int_ptr 8240))))
  = Some (Demo.int_ptr 8240).
Proof. reflexivity. Qed.

Example unwrap_by_scan :
  _extract_vector_end_cap_pointer (Some Demo.plain_record) = Some (Demo.int_ptr 8240).
Proof. reflexivity. Qed.

(** C3, as stated, fails: with a pointer one level deep under [__first_] and
    another two levels deep under the earlier name [__value_], probing every
    name one level deep before any name two levels deep yields the former,
    while the resolver returns the latter. *)
Lemma unwrap_order_counterexample :
  staged_unwrap (Some Demo.two_pointers) = Some (Demo.int_ptr 8216) /\
  _extract_vector_end_cap_pointer (Some Demo.two_pointers) = Some (Demo.int_ptr 8240) /\
  _extract_vector_end_cap_pointer (Some Demo.two_pointers)
    <> staged_unwrap (Some Demo.two_pointers).
Proof.
  split; [reflexivity|]. split; [reflexivity|].
  vm_compute. intros [= Habs].
Qed.

(** C3, amended: the resolver returns the first success of this ordered list
    of strategies: the candidate itself when pointer-typed; then, for each
    wrapper name in turn, the child of that name one level deep and, below
    that child, two levels deep; then the scan of all structural children for
    the first valid pointer-typed one. An absent or invalid candidate, or the
    failure of every strategy, gives [None]; whatever is returned is a valid
    pointer-typed value. *)
Theorem unwrap_order (end_cap_value : option SBValue) :
  _extract_vector_end_cap_pointer end_cap_value = interleaved_unwrap end_cap_value /\
  (forall p, _extract_vector_end_cap_pointer end_cap_value = Some p ->
             IsValid p = true /\ is_pointer p = true) /\
  (_extract_vector_end_cap_pointer end_cap_value = None <->
   forall v, end_cap_value = Some v -> IsValid v = true ->
     direct_pointer v = None /\
     first_success (concat (map per_name wrapper_names)) v = None /\
     first_pointer_child v = None).
Proof.
  split; [apply extract_interleaved|].
  split; [intros p; apply extract_sound|].
  rewrite extract_interleaved.
  destruct end_cap_value as [v|]; cbn [interleaved_unwrap].
  2:{ split; [intros _ v [=] | reflexivity]. }
  destruct (IsValid v) eqn:Hv.
  2:{ split; [intros _ v' [= <-] Hv'; congruence | reflexivity]. }
  rewrite !first_success_app. cbn [first_success].
  destruct (direct_pointer v) eqn:Hd.
  { split; [discriminate|]. intros Hall.
    destruct (Hall v eq_refl Hv) as [Habs _]. congruence. }
  destruct (first_success (concat (map per_name wrapper_names)) v) as [q|] eqn:Hq.
  { split; [discriminate|]. intros Hall.
    destruct (Hall v eq_refl Hv) as (_ & Habs & _). congruence. }
  destruct (first_pointer_child v) as [r|] eqn:Hr.
  { split; [discriminate|]. intros Hall.
    destruct (Hall v eq_refl Hv) as (_ & _ & Habs). congruence. }
  split; [|reflexivity]. intros _ v' [= <-] _. repeat split; assumption.
Qed.

(** ** The frame of [vector_summary_provider] *)

Section VectorFrame.

Context {H : Host}.

Lemma floordiv_pos (a b : Z) : (b >? 0) = true -> floordiv a b = Return (a / b).
Proof.
  intros Hb. unfold floordiv.
  destruct (Z.eqb_spec b 0) as [->|_]; [discriminate | reflexivity].
Qed.

Lemma size_guard_no_raise (begin_addr end_addr element_size : Z) :
  (if nonzero begin_addr && nonzero end_addr && (element_size >? 0)
      && (end_addr >=? begin_addr)
   then floordiv (end_addr - begin_addr) element_size
   else Return 0)
  = Return (logical_length begin_addr end_addr element_size).
Proof.
  unfold logical_length.
  destruct (nonzero begin_addr), (nonzero end_addr); cbn [andb]; try reflexivity.
  destruct (element_size >? 0) eqn:Hes; cbn [andb]; [|reflexivity].
  destruct (end_addr >=? begin_addr); [|reflexivity].
  exact (floordiv_pos _ _ Hes).
Qed.

Lemma capacity_guard_no_raise (end_cap_ptr : option SBValue)
    (begin_addr element_size : Z) :
  match end_cap_ptr with
  | Some p =>
      if IsValid p then
        let end_cap_addr := get_raw_pointer p in
        if nonzero end_cap_addr && (element_size >? 0)
           && (end_cap_addr >=? begin_addr)
        then c <- floordiv (end_cap_addr - begin_addr) element_size ;;
             Return (Some c)
        else Return None
      else Return None
  | None => Return None
  end
  = Return (reported_capacity (recovered_address end_cap_ptr) begin_addr element_size).
Proof.
  unfold reported_capacity, recovered_address.
  destruct end_cap_ptr as [p|]; [|reflexivity].
  destruct (IsValid p); [|reflexivity]. cbv zeta.
  destruct (nonzero (get_raw_pointer p)); cbn [andb]; [|reflexivity].
  destruct (element_size >? 0) eqn:Hes; cbn [andb]; [|reflexivity].
  destruct (get_raw_pointer p >=? begin_addr); [|reflexivity].
  rewrite (floordiv_pos _ _ Hes). reflexivity.
Qed.

(** The frame is always built (no exception escapes), and each of its fields
    has the closed form below. *)
Lemma vector_frame_of_fields (valobj b e : SBValue) (cap : option SBValue) :
  exists f : vector_frame,
    vector_frame_of valobj b e cap = Return f /\
    begin_addr f = get_raw_pointer b /\
    end_addr f = get_raw_pointer e /\
    elem_type f = fst (element_type_and_size b) /\
    element_size f = snd (element_type_and_size b) /\
    size f = logical_length (begin_addr f) (end_addr f) (element_size f) /\
    capacity f = reported_capacity (recovered_address cap) (begin_addr f) (element_size f) /\
    values f = fst (element_window valobj (begin_addr f) (element_size f)
                      (elem_type f) (size f)) /\
    truncated f = snd (element_window valobj (begin_addr f) (element_size f)
                         (elem_type f) (size f)).
Proof.
  unfold vector_frame_of.
  destruct (element_type_and_size b) as [et es]. cbv zeta.
  rewrite size_guard_no_raise. cbn [py_bind].
  rewrite capacity_guard_no_raise. cbn [py_bind].
  destruct (element_window valobj (get_raw_pointer b) es et
              (logical_length (get_raw_pointer b) (get_raw_pointer e) es))
    as [vs tr] eqn:Hw.
  eexists. split; [reflexivity|]. cbn [begin_addr end_addr elem_type element_size
    size capacity values truncated fst snd].
  rewrite Hw. repeat split; reflexivity.
Qed.

Lemma vector_provider_resolved (valobj b e : SBValue) :
  get_child_member_by_names valobj ["__begin_"; "__begin"] = Some b ->
  get_child_member_by_names valobj ["__end_"; "__end"] = Some e ->
  vector_summary_provider valobj =
  (f <- vector_frame_of valobj b e
          (_extract_vector_end_cap_pointer
             (get_child_member_by_names valobj ["__end_cap_"; "__end_cap"])) ;;
   Return (vector_render f)).
Proof.
  intros Hb He. unfold vector_summary_provider. rewrite Hb, He.
  rewrite (get_child_member_by_names_valid _ _ _ Hb).
  rewrite (get_child_member_by_names_valid _ _ _ He). reflexivity.
Qed.

Lemma logical_length_nonneg (b e es : Z) : 0 <= logical_length b e es.
Proof.
  unfold logical_length.
  destruct (nonzero b && nonzero e && (es >? 0) && (e >=? b)) eqn:Hg; [|lia].
  apply andb_true_iff in Hg as [Hg Hge].
  apply andb_true_iff in Hg as [_ Hes].
  apply Z.div_pos; lia.
Qed.

End VectorFrame.

(** ** Summaries and error lines *)

Lemma Return_inj {A : Type} (a b : A) : Return a = Return b -> a = b.
Proof. intros Heq. congruence. Qed.

Lemma last_char_cons (c : ascii) (s : string) :
  s <> EmptyString -> last_char (String c s) = last_char s.
Proof. destruct s; [congruence | reflexivity]. Qed.

Lemma is_summary_close (s : string) : is_summary (s +:+ "]").
Proof.
  unfold is_summary.
  induction s as [|c s IH]; [reflexivity|].
  change (String c s +:+ "]") with (String c (s +:+ "]")).
  rewrite last_char_cons; [exact IH|].
  intros Hs. rewrite Hs in IH. discriminate.
Qed.

Lemma is_summary_app (s t : string) : is_summary t -> is_summary (s +:+ t).
Proof.
  unfold is_summary. intros Ht.
  induction s as [|c s IH]; [exact Ht|].
  change (String c s +:+ t) with (String c (s +:+ t)).
  rewrite last_char_cons; [exact IH|].
  intros Hs. rewrite Hs in IH. discriminate.
Qed.

Lemma vector_error_not_summary : ~ is_summary vector_error.
Proof. unfold is_summary. vm_compute. discriminate. Qed.


Section Shapes.

Context {H : Host}.

Lemma vector_render_is_summary (f : vector_frame) : is_summary (vector_render f).
Proof.
  unfold vector_render. cbv zeta.
  repeat lazymatch goal with
    | |- is_summary (_ +:+ "]") => apply is_summary_close
    | |- is_summary (_ +:+ _) => apply is_summary_app
    end.
Qed.


End Shapes.

(** ** The element window *)

Lemma range_lookup (n i : Z) : 0 <= i < n -> range n !! Z.to_nat i = Some i.
Proof.
  intros Hi. unfold range. rewrite list_lookup_fmap.
  rewrite lookup_seq_lt by lia. cbn [fmap option_fmap option_map].
  f_equal. lia.
Qed.

Lemma range_length (n : Z) : List.length (range n) = Z.to_nat n.
Proof. unfold range. rewrite length_map, length_seq. reflexivity. Qed.

Lemma element_size_pos (b : SBValue) :
  0 < snd (element_type_and_size b) ->
  exists t, fst (element_type_and_size b) = Some t /\ SBTypeAPI.IsValid t = true.
Proof.
  unfold element_type_and_size.
  destruct (is_pointer b); cbn [fst snd]; [|lia].
  destruct (SBTypeAPI.IsValid (SBTypeAPI.GetPointeeType (GetType b))) eqn:Hv;
    cbn [fst snd]; [|lia].
  intros _. eexists. split; [reflexivity | exact Hv].
Qed.

Lemma logical_length_pos (b e es : Z) : 0 < logical_length b e es -> 0 < es.
Proof.
  unfold logical_length.
  destruct (nonzero b && nonzero e && (es >? 0) && (e >=? b)) eqn:Hg; [|lia].
  apply andb_true_iff in Hg as [Hg _].
  apply andb_true_iff in Hg as [_ Hes]. lia.
Qed.

Section Window.

Context {H : Host}.

Lemma element_window_zero (valobj : SBValue) (ba es : Z) (et : option SBType) :
  element_window valobj ba es et 0 = ([], false).
Proof. unfold element_window. destruct et; reflexivity. Qed.

Lemma element_window_pos (valobj : SBValue) (ba es n : Z) (t : SBType) :
  0 < n -> 0 < es -> SBTypeAPI.IsValid t = true ->
  element_window valobj ba es (Some t) n =
  (map (element_summary valobj ba es t) (range (Z.min n summary_max_items)),
   n >? summary_max_items).
Proof.
  intros Hn Hes Ht. unfold element_window. rewrite Ht.
  replace (n >? 0) with true by lia. replace (es >? 0) with true by lia.
  reflexivity.
Qed.

(** The window of a frame: how many values, which value at which index, and
    the truncation flag. *)
Lemma frame_window (valobj b e : SBValue) (cap : option SBValue) (f : vector_frame) :
  vector_frame_of valobj b e cap = Return f ->
  List.length (values f) = Z.to_nat (Z.min (size f) summary_max_items) /\
  (forall i, 0 <= i < Z.min (size f) summary_max_items ->
     exists t, elem_type f = Some t /\
       values f !! Z.to_nat i =
       Some (element_summary valobj (get_raw_pointer b) (element_size f) t i)) /\
  truncated f = (0 <? size f) && (size f >? summary_max_items).
Proof.
  intros Hf.
  destruct (vector_frame_of_fields valobj b e cap)
    as (f' & Hf' & Hba & Hea & Het & Hes & Hsz & _ & Hvs & Htr).
  rewrite Hf in Hf'. injection Hf' as <-.
  assert (Hnn : 0 <= size f) by (rewrite Hsz; apply logical_length_nonneg).
  destruct (Z.eq_dec (size f) 0) as [H0|Hpos].
  - rewrite H0 in Hvs, Htr |- *. rewrite element_window_zero in Hvs, Htr.
    cbn [fst snd] in Hvs, Htr. rewrite Hvs, Htr.
    split; [cbn; lia|]. split; [intros i Hi; lia | reflexivity].
  - assert (Hsp : 0 < size f) by lia.
    assert (Hep : 0 < element_size f).
    { rewrite Hsz in Hsp. exact (logical_length_pos _ _ _ Hsp). }
    destruct (element_size_pos b) as (t & Ht & Hv); [rewrite <- Hes; exact Hep|].
    rewrite <- Het in Ht. rewrite Ht in Hvs, Htr.
    rewrite (element_window_pos _ _ _ _ _ Hsp Hep Hv) in Hvs, Htr.
    cbn [fst snd] in Hvs, Htr. rewrite Hvs, Htr, Hba.
    split; [rewrite length_map; apply range_length|].
    split.
    + intros i Hi. exists t. split; [exact Ht|].
      rewrite list_lookup_fmap, (range_lookup _ _ Hi). reflexivity.
    + replace (0 <? size f) with true by lia. reflexivity.
Qed.

End Window.

(** ** The claims about [vector_summary_provider] *)

Section VectorClaims.

Context {H : Host}.

(** With both boundaries resolved the provider returns the rendering of the
    frame, and the frame is always built. *)
Lemma vector_provider_frame (valobj b e : SBValue) :
  begin_of valobj = Some b -> end_of valobj = Some e ->
  exists f : vector_frame,
    vector_summary_provider valobj = Return (vector_render f) /\
    vector_frame_of valobj b e (end_cap_of valobj) = Return f.
Proof.
  intros Hb He. rewrite (vector_provider_resolved _ _ _ Hb He).
  destruct (vector_frame_of_fields valobj b e (end_cap_of valobj)) as (f & Hf & _).
  exists f. rewrite Hf. split; reflexivity.
Qed.

(** C1, amended: with both boundary pointers resolved, the reported length is
    [(address(end) - address(begin)) / element_size] when both addresses are
    non-null, [element_size > 0] and [address(end) >= address(begin)], and 0
    in every other case; it is never negative. *)
Theorem vector_logical_length (valobj b e : SBValue) :
  begin_of valobj = Some b -> end_of valobj = Some e ->
  exists f : vector_frame,
    vector_summary_provider valobj = Return (vector_render f) /\
    vector_frame_of valobj b e (end_cap_of valobj) = Return f /\
    (get_raw_pointer b <> 0 -> get_raw_pointer e <> 0 -> element_size f > 0 ->
     get_raw_pointer e >= get_raw_pointer b ->
     size f = (get_raw_pointer e - get_raw_pointer b) / element_size f) /\
    (get_raw_pointer b = 0 \/ get_raw_pointer e = 0 \/ element_size f <= 0 \/
     get_raw_pointer e < get_raw_pointer b -> size f = 0) /\
    0 <= size f.
Proof.
  intros Hb He.
  destruct (vector_provider_frame _ _ _ Hb He) as (f & Hp & Hf).
  exists f. split; [exact Hp|]. split; [exact Hf|].
  destruct (vector_frame_of_fields valobj b e (end_cap_of valobj))
    as (f' & Hf' & Hba & Hea & _ & _ & Hsz & _).
  rewrite Hf in Hf'. injection Hf' as <-.
  rewrite Hba, Hea in Hsz. rewrite Hsz. unfold logical_length, nonzero.
  split; [|split].
  - intros H1 H2 H3 H4.
    replace (get_raw_pointer b =? 0) with false by lia.
    replace (get_raw_pointer e =? 0) with false by lia.
    replace (element_size f >? 0) with true by lia.
    replace (get_raw_pointer e >=? get_raw_pointer b) with true by lia.
    reflexivity.
  - intros Hno.
    destruct (negb (get_raw_pointer b =? 0) && negb (get_raw_pointer e =? 0)
              && (element_size f >? 0)
              && (get_raw_pointer e >=? get_raw_pointer b)) eqn:Hg; [|reflexivity].
    apply andb_true_iff in Hg as [Hg H4].
    apply andb_true_iff in Hg as [Hg H3].
    apply andb_true_iff in Hg as [H1 H2].
    apply negb_true_iff in H1, H2. lia.
  - fold (nonzero (get_raw_pointer b)). fold (nonzero (get_raw_pointer e)).
    apply logical_length_nonneg.
Qed.


(** C4, amended: [min(n, maxItems)] values are previewed (none when that
    minimum is not positive), the [i]-th built from the value created at
    [begin + i * element_size] under the label [[i]], and the preview is
    marked truncated exactly when [n > 0] and [n > maxItems]. *)
Theorem vector_element_window (valobj b e : SBValue) :
  begin_of valobj = Some b -> end_of valobj = Some e ->
  exists f : vector_frame,
    vector_summary_provider valobj = Return (vector_render f) /\
    vector_frame_of valobj b e (end_cap_of valobj) = Return f /\
    List.length (values f) = Z.to_nat (Z.min (size f) summary_max_items) /\
    (forall i : Z, 0 <= i < Z.min (size f) summary_max_items ->
       exists t : SBType,
         elem_type f = Some t /\
         values f !! Z.to_nat i =
         Some (get_value_summary
                 match CreateValueFromAddress valobj ("[" +:+ str i +:+ "]")
                         (get_raw_pointer b + i * element_size f) t with
                 | Return v => Some v
                 | Raise _ => None
                 end)) /\
    (truncated f = true <-> 0 < size f /\ size f > summary_max_items) /\
    (0 <= summary_max_items -> (truncated f = true <-> size f > summary_max_items)).
Proof.
  intros Hb He.
  destruct (vector_provider_frame _ _ _ Hb He) as (f & Hp & Hf).
  exists f. split; [exact Hp|]. split; [exact Hf|].
  destruct (frame_window _ _ _ _ _ Hf) as (Hlen & Hnth & Htr).
  split; [exact Hlen|]. split; [exact Hnth|].
  rewrite Htr. rewrite andb_true_iff. split; [lia|]. intros Hmax. lia.
Qed.

(** C6, amended: when the begin boundary or the end boundary is absent the
    provider returns the one-line error
    ["Error: Could not locate vector storage pointers."]; no length and no
    element set are reported. *)
Theorem vector_missing_boundary (valobj : SBValue) :
  begin_of valobj = None \/ end_of valobj = None ->
  vector_summary_provider valobj = Return vector_error /\
  forall f : vector_frame, vector_summary_provider valobj <> Return (vector_render f).
Proof.
  intros Hmiss.
  assert (Herr : vector_summary_provider valobj = Return vector_error).
  { unfold vector_summary_provider.
    destruct Hmiss as [-> | ->]; [reflexivity|].
    destruct (begin_of valobj); reflexivity. }
  split; [exact Herr|]. intros f Hf. rewrite Herr in Hf. injection Hf as Hf.
  apply vector_error_not_summary. rewrite Hf. apply vector_render_is_summary.
Qed.



(** C10: when the begin pointer reads as address 0 the provider reports
    [size = 0] and [data = null], whatever the end pointer reads as. *)
Theorem vector_null_begin (valobj b e : SBValue) :
  begin_of valobj = Some b -> end_of valobj = Some e ->
  get_raw_pointer b = 0 ->
  exists f : vector_frame,
    vector_summary_provider valobj = Return (vector_render f) /\
    vector_frame_of valobj b e (end_cap_of valobj) = Return f /\
    size f = 0 /\ begin_addr f = 0 /\ values f = [] /\
    exists capacity_str : string,
      vector_render f =
      color Colors_GREEN +:+ "size = 0" +:+ color Colors_RESET +:+ ", " +:+
      color Colors_GREEN +:+ capacity_str +:+ color Colors_RESET +:+ ", " +:+
      color Colors_GREEN +:+ "data = null" +:+ color Colors_RESET +:+ ", []".
Proof.
  intros Hb He Hnull.
  destruct (vector_provider_frame _ _ _ Hb He) as (f & Hp & Hf).
  exists f. split; [exact Hp|]. split; [exact Hf|].
  destruct (vector_frame_of_fields valobj b e (end_cap_of valobj))
    as (f' & Hf' & Hba & _ & _ & _ & Hsz & _ & Hvs & Htr).
  rewrite Hf in Hf'. injection Hf' as <-.
  rewrite Hnull in Hba.
  assert (Hs0 : size f = 0).
  { rewrite Hsz, Hba. reflexivity. }
  rewrite Hs0, element_window_zero in Hvs, Htr. cbn [fst snd] in Hvs, Htr.
  split; [exact Hs0|]. split; [exact Hba|]. split; [exact Hvs|].
  eexists. unfold vector_render. rewrite Hs0, Hba, Htr. reflexivity.
Qed.

End VectorClaims.

(** ** The claims about [linear_container_summary_provider] and the error lines *)

Section LinearClaims.

Context {H : Host}.

(** C5: a head pointer that reads as address 0 gives the canonical empty
    summary at once, whatever the item cap and the traversal strategy. *)
Theorem linear_null_head (valobj head : SBValue) :
  head_of valobj = Some head ->
  get_raw_pointer head = 0 ->
  linear_container_summary_provider valobj = "size = 0, []".
Proof.
  intros Hh Hnull. unfold linear_container_summary_provider.
  rewrite Hh, (get_child_member_by_names_valid _ _ _ Hh), Hnull. reflexivity.
Qed.





End LinearClaims.

(** ** Concrete runs: where the stated claims fail, and instances of the theorems *)

Example vector_of_twelve :
  vector_summary_provider (H := Demo.host 30) Demo.twelve_ints
  = Return "size = 12, capacity = 16, data = 0x1000, [0, 10, [unavailable], 30, 40, 50, 60, 70, 80, 90, [unavailable], [unavailable]]".
Proof. vm_compute. reflexivity. Qed.

Example vector_untyped_begin :
  vector_summary_provider (H := Demo.host 30) Demo.untyped_begin
  = Return "size = 0, capacity = ?, data = null, []".
Proof. vm_compute. reflexivity. Qed.

(** C1, as stated, fails: with a null begin address, an end address of 8 and
    four-byte elements the stated formula gives 2, the reported length is 0. *)
Lemma length_formula_counterexample :
  begin_of Demo.null_begin_vector = Some (Demo.int_ptr 0) /\
  end_of Demo.null_begin_vector = Some (Demo.int_ptr 8) /\
  vector_summary_provider (H := Demo.host 30) Demo.null_begin_vector
  = Return "size = 0, capacity = ?, data = null, []" /\
  exists f : vector_frame,
    vector_frame_of (H := Demo.host 30) Demo.null_begin_vector
      (Demo.int_ptr 0) (Demo.int_ptr 8) (end_cap_of Demo.null_begin_vector)
    = Return f /\
    end_addr f >= begin_addr f /\ element_size f > 0 /\
    (end_addr f - begin_addr f) / element_size f = 2 /\
    size f = 0 /\
    size f <> (end_addr f - begin_addr f) / element_size f.
Proof.
  split; [reflexivity|]. split; [reflexivity|].
  split; [vm_compute; reflexivity|].
  eexists. split; [vm_compute; reflexivity|].
  cbn [begin_addr end_addr element_size size].
  repeat split; try lia; try reflexivity. vm_compute. discriminate.
Qed.


(** C6, as stated, fails: with no end member the provider gives the error
    line, not a zero-length summary with an unavailable element set. *)
Lemma missing_boundary_counterexample :
  end_of Demo.begin_only = None /\
  vector_summary_provider (H := Demo.host 30) Demo.begin_only
  = Return "Error: Could not locate vector storage pointers." /\
  ~ exists f : vector_frame,
      vector_summary_provider (H := Demo.host 30) Demo.begin_only
      = Return (vector_render (H := Demo.host 30) f) /\ size f = 0.
Proof.
  split; [reflexivity|]. split; [reflexivity|].
  intros (f & Hf & _).
  change (Return vector_error = Return (vector_render (H := Demo.host 30) f)) in Hf.
  apply Return_inj in Hf.
  apply vector_error_not_summary. rewrite Hf. apply vector_render_is_summary.
Qed.

Lemma vector_logical_length_witness :
  begin_of Demo.ten_ints = Some (Demo.int_ptr 4096) /\
  end_of Demo.ten_ints = Some (Demo.int_ptr 4136) /\
  exists f : vector_frame,
    vector_summary_provider (H := Demo.host 30) Demo.ten_ints
    = Return (vector_render (H := Demo.host 30) f) /\ size f = 10.
Proof.
  split; [reflexivity|]. split; [reflexivity|].
  destruct (vector_logical_length (H := Demo.host 30) Demo.ten_ints
              (Demo.int_ptr 4096) (Demo.int_ptr 4136) eq_refl eq_refl)
    as (f & Hp & Hf & Hsz & _).
  exists f. split; [exact Hp|].
  vm_compute in Hf. injection Hf as <-.
  rewrite Hsz; vm_compute; first [reflexivity | discriminate].
Defined.


(** C4, as stated, fails: under an item cap of -1 an empty vector has
    [n = 0 > maxItems], yet the guard of line 165 leaves the truncated flag
    false. *)
Lemma truncation_flag_counterexample :
  begin_of Demo.empty_vector = Some (Demo.int_ptr 0) /\
  end_of Demo.empty_vector = Some (Demo.int_ptr 0) /\
  vector_summary_provider (H := Demo.host (-1)) Demo.empty_vector
  = Return "size = 0, capacity = ?, data = null, []" /\
  exists f : vector_frame,
    vector_frame_of (H := Demo.host (-1)) Demo.empty_vector
      (Demo.int_ptr 0) (Demo.int_ptr 0) (end_cap_of Demo.empty_vector)
    = Return f /\
    size f > summary_max_items (Host := Demo.host (-1)) /\
    truncated f = false /\
    ~ (truncated f = true <-> size f > summary_max_items (Host := Demo.host (-1))).
Proof.
  split; [reflexivity|]. split; [reflexivity|].
  split; [vm_compute; reflexivity|].
  eexists. split; [vm_compute; reflexivity|].
  cbn [size truncated summary_max_items Demo.host].
  split; [lia|]. split; [reflexivity|].
  intros [_ Hback]. assert (Habs : false = true) by (apply Hback; lia).
  discriminate.
Qed.

Lemma vector_element_window_witness :
  begin_of Demo.ten_ints = Some (Demo.int_ptr 4096) /\
  end_of Demo.ten_ints = Some (Demo.int_ptr 4136) /\
  exists f : vector_frame,
    vector_summary_provider (H := Demo.host 3) Demo.ten_ints
    = Return (vector_render (H := Demo.host 3) f) /\
    List.length (values f) = 3%nat /\ truncated f = true.
Proof.
  split; [reflexivity|]. split; [reflexivity|].
  destruct (vector_element_window (H := Demo.host 3) Demo.ten_ints
              (Demo.int_ptr 4096) (Demo.int_ptr 4136) eq_refl eq_refl)
    as (f & Hp & Hf & Hlen & _ & Htr & _).
  exists f. split; [exact Hp|].
  vm_compute in Hf. injection Hf as <-.
  split; [exact Hlen|]. apply Htr. vm_compute. split; reflexivity.
Defined.

Lemma linear_null_head_witness :
  head_of Demo.empty_list = Some (Demo.int_ptr 0) /\
  get_raw_pointer (Host := Demo.host 30) (Demo.int_ptr 0) = 0 /\
  linear_container_summary_provider (H := Demo.host 30) Demo.empty_list
  = "size = 0, []".
Proof.
  split; [reflexivity|]. split; [reflexivity|].
  exact (linear_null_head (H := Demo.host 30) Demo.empty_list (Demo.int_ptr 0)
           eq_refl eq_refl).
Defined.

Lemma vector_missing_boundary_witness :
  (begin_of Demo.begin_only = None \/ end_of Demo.begin_only = None) /\
  vector_summary_provider (H := Demo.host 30) Demo.begin_only = Return vector_error.
Proof.
  split; [right; reflexivity|].
  exact (proj1 (vector_missing_boundary (H := Demo.host 30) Demo.begin_only
                  (or_intror eq_refl))).
Defined.


Lemma vector_null_begin_witness :
  begin_of Demo.null_begin_vector = Some (Demo.int_ptr 0) /\
  end_of Demo.null_begin_vector = Some (Demo.int_ptr 8) /\
  get_raw_pointer (Host := Demo.host 30) (Demo.int_ptr 0) = 0 /\
  exists f : vector_frame,
    vector_summary_provider (H := Demo.host 30) Demo.null_begin_vector
    = Return (vector_render (H := Demo.host 30) f) /\ size f = 0 /\ begin_addr f = 0.
Proof.
  split; [reflexivity|]. split; [reflexivity|]. split; [reflexivity|].
  destruct (vector_null_begin (H := Demo.host 30) Demo.null_begin_vector
              (Demo.int_ptr 0) (Demo.int_ptr 8) eq_refl eq_refl eq_refl)
    as (f & Hp & _ & Hs & Hb & _).
  exists f. split; [exact Hp|]. split; [exact Hs | exact Hb].
Defined.

(** ** Further properties of [_extract_vector_end_cap_pointer] *)

Lemma lookup_member_In (name : string) (cs : list (string * SBValue)) :
  IsValid (lookup_member name cs) = true ->
  In (name, lookup_member name cs) cs.
Proof.
  induction cs as [|[n c] cs IH]; cbn [lookup_member]; [discriminate|].
  destruct (String.eqb_spec n name) as [->|Hne]; intros Hv.
  - left. reflexivity.
  - right. exact (IH Hv).
Qed.

Lemma get_child_member_by_names_In (v : SBValue) (names : list string) (c : SBValue) :
  get_child_member_by_names v names = Some c ->
  exists name : string, In name names /\ In (name, c) (children v).
Proof.
  induction names as [|name rest IH]; cbn [get_child_member_by_names];
    [discriminate|].
  destruct (IsValid (GetChildMemberWithName v name)) eqn:Hv.
  - intros [= <-]. exists name. split; [left; reflexivity|].
    exact (lookup_member_In _ _ Hv).
  - intros Hr. destruct (IH Hr) as (n & Hn & Hc).
    exists n. split; [right; exact Hn | exact Hc].
Qed.

Lemma per_name_located (v p : SBValue) (names : list string) :
  first_success (concat (map per_name names)) v = Some p ->
  (exists n : string, In n names /\ In (n, p) (children v)) \/
  (exists (n : string) (c : SBValue) (m : string),
     In n names /\ In (n, c) (children v) /\
     In m wrapper_names /\ In (m, p) (children c)).
Proof.
  induction names as [|name rest IH]; [discriminate|].
  cbn [map concat per_name app first_success].
  assert (Hrest :
    first_success (concat (map per_name rest)) v = Some p ->
    (exists n : string, In n (name :: rest) /\ In (n, p) (children v)) \/
    (exists (n : string) (c : SBValue) (m : string),
       In n (name :: rest) /\ In (n, c) (children v) /\
       In m wrapper_names /\ In (m, p) (children c))).
  { intros Hr. destruct (IH Hr) as [(n & Hn & Hc) | (n & c & m & Hn & Hc & Hm & Hp)].
    - left. exists n. split; [right; exact Hn | exact Hc].
    - right. exists n, c, m. split; [right; exact Hn|]. repeat split; assumption. }
  unfold one_level, two_levels.
  destruct (IsValid (GetChildMemberWithName v name)) eqn:Hc;
    cbn [andb]; [|exact Hrest].
  destruct (is_pointer (GetChildMemberWithName v name)) eqn:Hp.
  - intros [= <-]. left. exists name. split; [left; reflexivity|].
    exact (lookup_member_In _ _ Hc).
  - destruct (get_child_member_by_names (GetChildMemberWithName v name) wrapper_names)
      as [q|] eqn:Hq; [|exact Hrest].
    destruct (is_pointer q); [|exact Hrest].
    intros [= <-]. right.
    destruct (get_child_member_by_names_In _ _ _ Hq) as (m & Hm & Hin).
    exists name, (GetChildMemberWithName v name), m.
    split; [left; reflexivity|]. split; [exact (lookup_member_In _ _ Hc)|].
    split; assumption.
Qed.

(** X1. Unwrapping is idempotent: what the resolver returns is a valid
    pointer-typed value, which the resolver hands back unchanged. *)
Theorem extract_idempotent (end_cap_value : option SBValue) :
  _extract_vector_end_cap_pointer (_extract_vector_end_cap_pointer end_cap_value)
  = _extract_vector_end_cap_pointer end_cap_value.
Proof.
  destruct (_extract_vector_end_cap_pointer end_cap_value) as [p|] eqn:Hp;
    [|reflexivity].
  destruct (extract_sound _ _ Hp) as [Hv Hptr].
  unfold _extract_vector_end_cap_pointer. rewrite Hv, Hptr. reflexivity.
Qed.

(** X2. The resolver never looks deeper than two levels: the pointer it returns
    is the candidate itself, one of its children, or a wrapper-named child of
    a wrapper-named child. *)
Theorem extract_within_two_levels (end_cap_value : option SBValue) (p : SBValue) :
  _extract_vector_end_cap_pointer end_cap_value = Some p ->
  exists v : SBValue,
    end_cap_value = Some v /\
    (p = v \/
     (exists n : string, In (n, p) (children v)) \/
     (exists (n : string) (c : SBValue) (m : string),
        In n wrapper_names /\ In (n, c) (children v) /\
        In m wrapper_names /\ In (m, p) (children c))).
Proof.
  rewrite extract_interleaved.
  destruct end_cap_value as [v|]; cbn [interleaved_unwrap]; [|discriminate].
  destruct (IsValid v); [|discriminate].
  rewrite !first_success_app. cbn [first_success]. unfold direct_pointer.
  intros Hr. exists v. split; [reflexivity|].
  destruct (is_pointer v).
  { injection Hr as <-. left. reflexivity. }
  destruct (first_success (concat (map per_name wrapper_names)) v) as [q|] eqn:Hq.
  { injection Hr as <-. right.
    destruct (per_name_located _ _ _ Hq) as [(n & _ & Hc) | Hdeep].
    - left. exists n. exact Hc.
    - right. exact Hdeep. }
  right. left. unfold first_pointer_child in Hr.
  destruct (List.find _ (children v)) as [[n c]|] eqn:Hf; [|discriminate].
  injection Hr as <-. apply find_some in Hf as [Hin _].
  exists n. exact Hin.
Qed.

(** X3. Whatever its name, a valid pointer-typed direct child of a valid
    candidate guarantees that some capacity pointer is recovered. *)
Theorem extract_finds_pointer_child (v c : SBValue) (n : string) :
  IsValid v = true ->
  In (n, c) (children v) -> IsValid c = true -> is_pointer c = true ->
  exists p : SBValue, _extract_vector_end_cap_pointer (Some v) = Some p.
Proof.
  intros Hv Hin Hc Hp. rewrite extract_interleaved.
  cbn [interleaved_unwrap]. rewrite Hv.
  rewrite !first_success_app. cbn [first_success].
  destruct (direct_pointer v) as [q|]; [exists q; reflexivity|].
  destruct (first_success (concat (map per_name wrapper_names)) v) as [q|];
    [exists q; reflexivity|].
  unfold first_pointer_child.
  destruct (List.find (fun nc => IsValid (snd nc) && is_pointer (snd nc)) (children v))
    as [[m q]|] eqn:Hf; [exists q; reflexivity|].
  exfalso. pose proof (find_none _ _ Hf _ Hin) as Hno.
  cbn [snd] in Hno. rewrite Hc, Hp in Hno. discriminate.
Qed.

(** ** Further properties of [vector_summary_provider] *)

Lemma logical_length_nonzero (b e es : Z) :
  logical_length b e es <> 0 ->
  b <> 0 /\ e <> 0 /\ 0 < es /\ b <= e /\ logical_length b e es = (e - b) / es.
Proof.
  unfold logical_length, nonzero.
  destruct (negb (b =? 0) && negb (e =? 0) && (es >? 0) && (e >=? b)) eqn:Hg;
    [intros _ | congruence].
  apply andb_true_iff in Hg as [Hg H4].
  apply andb_true_iff in Hg as [Hg H3].
  apply andb_true_iff in Hg as [H1 H2].
  apply negb_true_iff in H1, H2. repeat split; lia.
Qed.

Lemma nonempty_app_r (s t : string) : nonempty t = true -> nonempty (s +:+ t) = true.
Proof. destruct s; [intros Ht; exact Ht | reflexivity]. Qed.

Lemma app_empty_r (s : string) : s +:+ "" = s.
Proof.
  induction s as [|c s IH]; [reflexivity|].
  change (String c s +:+ "") with (String c (s +:+ "")).
  rewrite IH. reflexivity.
Qed.

Lemma string_app_assoc (s t u : string) : (s +:+ t) +:+ u = s +:+ (t +:+ u).
Proof.
  induction s as [|c s IH]; [reflexivity|].
  change ((String c s +:+ t) +:+ u) with (String c ((s +:+ t) +:+ u)).
  rewrite IH. reflexivity.
Qed.

Section VectorExtras.

Context {H : Host}.

Lemma frame_fields (valobj b e : SBValue) (cap : option SBValue) (f : vector_frame) :
  vector_frame_of valobj b e cap = Return f ->
  begin_addr f = get_raw_pointer b /\
  elem_type f = fst (element_type_and_size b) /\
  element_size f = snd (element_type_and_size b) /\
  size f = logical_length (get_raw_pointer b) (get_raw_pointer e) (element_size f) /\
  capacity f = reported_capacity (recovered_address cap) (get_raw_pointer b)
                 (element_size f).
Proof.
  intros Hf.
  destruct (vector_frame_of_fields valobj b e cap)
    as (f' & Hf' & Hba & Hea & Het & Hes & Hsz & Hcap & _).
  rewrite Hf in Hf'. apply Return_inj in Hf'. subst f'.
  rewrite Hba, Hea in Hsz. rewrite Hba in Hcap.
  repeat split; assumption.
Qed.

(** X4. A non-zero size is reported only for a pointer-typed begin member with a
    valid pointee type of positive byte size, non-null begin and end
    addresses, and an end address at least one element above begin. *)
Theorem nonzero_size_invariant (valobj b e : SBValue) (cap : option SBValue)
    (f : vector_frame) :
  vector_frame_of valobj b e cap = Return f ->
  size f <> 0 ->
  0 < size f /\
  is_pointer b = true /\
  (exists t : SBType, elem_type f = Some t /\ SBTypeAPI.IsValid t = true /\
                      element_size f = SBTypeAPI.GetByteSize t) /\
  0 < element_size f /\
  get_raw_pointer b <> 0 /\ get_raw_pointer e <> 0 /\
  get_raw_pointer b + element_size f <= get_raw_pointer e.
Proof.
  intros Hf Hnz.
  destruct (frame_fields _ _ _ _ _ Hf) as (_ & Het & Hes & Hsz & _).
  rewrite Hsz in Hnz.
  destruct (logical_length_nonzero _ _ _ Hnz) as (Hb & He & Hpos & Hle & Hq).
  pose proof (logical_length_nonneg (get_raw_pointer b) (get_raw_pointer e)
                (element_size f)) as Hnn.
  pose proof (Z.mul_div_le (get_raw_pointer e - get_raw_pointer b)
                (element_size f) Hpos) as Hfloor.
  rewrite <- Hq, <- Hsz in Hfloor. rewrite <- Hsz in Hnn, Hnz.
  split; [lia|].
  assert (Hty : is_pointer b = true /\
                exists t, elem_type f = Some t /\ SBTypeAPI.IsValid t = true /\
                          element_size f = SBTypeAPI.GetByteSize t).
  { rewrite Het. rewrite Hes in Hpos |- *. unfold element_type_and_size in *.
    destruct (is_pointer b); cbn [fst snd] in *; [|lia].
    destruct (SBTypeAPI.IsValid (SBTypeAPI.GetPointeeType (GetType b))) eqn:Hv;
      cbn [fst snd] in *; [|lia].
    split; [reflexivity|]. eexists. repeat split. exact Hv. }
  destruct Hty as [Hptr Ht].
  split; [exact Hptr|]. split; [exact Ht|]. split; [exact Hpos|].
  split; [exact Hb|]. split; [exact He|]. nia.
Qed.

(** X5. The size counts whole elements only: whenever the guard of line 154
    holds, [size * element_size] bytes fit between begin and end and fewer
    than [element_size] bytes are left over. *)
Theorem size_counts_whole_elements (valobj b e : SBValue) (cap : option SBValue)
    (f : vector_frame) :
  vector_frame_of valobj b e cap = Return f ->
  get_raw_pointer b <> 0 -> get_raw_pointer e <> 0 ->
  0 < element_size f -> get_raw_pointer b <= get_raw_pointer e ->
  size f * element_size f <= get_raw_pointer e - get_raw_pointer b /\
  get_raw_pointer e - get_raw_pointer b < (size f + 1) * element_size f.
Proof.
  intros Hf Hb He Hpos Hle.
  destruct (frame_fields _ _ _ _ _ Hf) as (_ & _ & _ & Hsz & _).
  assert (Hq : size f = (get_raw_pointer e - get_raw_pointer b) / element_size f).
  { rewrite Hsz at 1. unfold logical_length, nonzero.
    replace (get_raw_pointer b =? 0) with false by lia.
    replace (get_raw_pointer e =? 0) with false by lia.
    replace (element_size f >? 0) with true by lia.
    replace (get_raw_pointer e >=? get_raw_pointer b) with true by lia.
    reflexivity. }
  pose proof (Z.mul_div_le (get_raw_pointer e - get_raw_pointer b)
                (element_size f) Hpos) as Hlo.
  pose proof (Z.mul_succ_div_gt (get_raw_pointer e - get_raw_pointer b)
                (element_size f) Hpos) as Hhi.
  rewrite <- Hq in Hlo, Hhi. split; lia.
Qed.

(** X6. No previewed element lies outside the storage: every value the provider
    creates occupies [element_size] bytes that start at or above begin and
    end at or below the end pointer. *)
Theorem preview_within_storage (valobj b e : SBValue) (cap : option SBValue)
    (f : vector_frame) (i : Z) :
  vector_frame_of valobj b e cap = Return f ->
  0 <= i < Z.min (size f) summary_max_items ->
  (exists t : SBType,
     values f !! Z.to_nat i =
     Some (get_value_summary
             match CreateValueFromAddress valobj ("[" +:+ str i +:+ "]")
                     (get_raw_pointer b + i * element_size f) t with
             | Return v => Some v
             | Raise _ => None
             end)) /\
  get_raw_pointer b <= get_raw_pointer b + i * element_size f /\
  get_raw_pointer b + i * element_size f + element_size f <= get_raw_pointer e.
Proof.
  intros Hf Hi.
  destruct (frame_window _ _ _ _ _ Hf) as (_ & Hnth & _).
  destruct (Hnth i Hi) as (t & _ & Hv).
  split; [exists t; exact Hv|].
  destruct (frame_fields _ _ _ _ _ Hf) as (_ & _ & _ & Hsz & _).
  assert (Hnz : logical_length (get_raw_pointer b) (get_raw_pointer e)
                  (element_size f) <> 0) by lia.
  destruct (logical_length_nonzero _ _ _ Hnz) as (_ & _ & Hpos & _ & Hq).
  pose proof (Z.mul_div_le (get_raw_pointer e - get_raw_pointer b)
                (element_size f) Hpos) as Hfloor.
  rewrite <- Hq, <- Hsz in Hfloor. split; nia.
Qed.

(** X7. A reported capacity is never negative, and it is at least the reported
    size whenever the recovered capacity end is not below the end pointer. *)
Theorem capacity_bounds_size (valobj b e p : SBValue) (f : vector_frame) (c : Z) :
  vector_frame_of valobj b e (Some p) = Return f ->
  capacity f = Some c ->
  0 <= c /\ (get_raw_pointer e <= get_raw_pointer p -> size f <= c).
Proof.
  intros Hf Hc.
  destruct (frame_fields _ _ _ _ _ Hf) as (_ & _ & _ & Hsz & Hcap).
  rewrite Hcap in Hc. unfold reported_capacity, recovered_address, nonzero in Hc.
  destruct (IsValid p); [|discriminate].
  destruct (negb (get_raw_pointer p =? 0) && (element_size f >? 0)
            && (get_raw_pointer p >=? get_raw_pointer b)) eqn:Hg; [|discriminate].
  injection Hc as <-.
  apply andb_true_iff in Hg as [Hg H3].
  apply andb_true_iff in Hg as [_ H2].
  split; [apply Z.div_pos; lia|].
  intros Hle. rewrite Hsz. unfold logical_length.
  destruct (nonzero (get_raw_pointer b) && nonzero (get_raw_pointer e)
            && (element_size f >? 0) && (get_raw_pointer e >=? get_raw_pointer b));
    [apply Z.div_le_mono; lia | apply Z.div_pos; lia].
Qed.


(** X9. The [[unavailable]] element list of line 191 appears exactly for a
    non-empty vector under an item cap of zero or less; the list then reads
    [[unavailable], ...]. *)
Theorem unavailable_only_without_cap (valobj b e : SBValue) (cap : option SBValue)
    (f : vector_frame) :
  vector_frame_of valobj b e cap = Return f ->
  (size f <> 0 /\ values f = [] <-> 0 < size f /\ summary_max_items <= 0) /\
  (0 < size f -> summary_max_items <= 0 ->
   exists summary_head : string,
     vector_render f =
     summary_head +:+ ", [" +:+
     ((color Colors_RED +:+ "[unavailable]" +:+ color Colors_RESET) +:+ ", ...")
     +:+ "]").
Proof.
  intros Hf.
  destruct (frame_window _ _ _ _ _ Hf) as (Hlen & _ & Htr).
  destruct (frame_fields _ _ _ _ _ Hf) as (_ & _ & _ & Hsz & _).
  pose proof (logical_length_nonneg (get_raw_pointer b) (get_raw_pointer e)
                (element_size f)) as Hnn.
  rewrite <- Hsz in Hnn.
  assert (Hnil : 0 < size f -> summary_max_items <= 0 -> values f = []).
  { intros Hs Hm. apply length_zero_iff_nil. rewrite Hlen. lia. }
  split.
  - split.
    + intros [Hnz Hv]. rewrite Hv in Hlen. cbn [List.length] in Hlen. lia.
    + intros [Hs Hm]. split; [lia | exact (Hnil Hs Hm)].
  - intros Hs Hm.
    assert (Htrue : truncated f = true).
    { rewrite Htr. apply andb_true_iff. lia. }
    exists (color Colors_GREEN +:+ ("size = " +:+ str (size f)) +:+ color Colors_RESET
            +:+ ", " +:+ color Colors_GREEN +:+
            match capacity f with
            | Some c => "capacity = " +:+ str c
            | None => "capacity = ?"
            end +:+ color Colors_RESET +:+ ", " +:+ color Colors_GREEN +:+
            (if nonzero (begin_addr f) then "data = 0x" +:+ hex (begin_addr f)
             else "data = null") +:+ color Colors_RESET).
    unfold vector_render. rewrite (Hnil Hs Hm), Htrue.
    replace (size f =? 0) with false by lia. cbn [map nonempty_list].
    rewrite nonempty_app_r by reflexivity.
    rewrite !string_app_assoc. reflexivity.
Qed.

(** X10. With colours disabled the rendering carries no colour code: error
    entries and data entries read alike, and the summary is plain text. *)
Theorem vector_render_plain (f : vector_frame) :
  should_use_colors = false ->
  vector_render f =
  ("size = " +:+ str (size f)) +:+ ", " +:+
  match capacity f with
  | Some c => "capacity = " +:+ str c
  | None => "capacity = ?"
  end +:+ ", " +:+
  (if begin_addr f =? 0 then "data = null" else "data = 0x" +:+ hex (begin_addr f))
  +:+ ", [" +:+
  (let elements_str :=
     if size f =? 0 then ""
     else match values f with
          | [] => "[unavailable]"
          | _ :: _ => String.concat ", " (values f)
          end in
   if truncated f
   then (if nonempty elements_str then elements_str +:+ ", ..." else "...")
   else elements_str)
  +:+ "]".
Proof.
  intros Hoff. unfold vector_render, color, nonzero. rewrite Hoff.
  cbv beta iota zeta.
  match goal with
  | |- context [map ?g (values f)] =>
      assert (Hmap : map g (values f) = values f)
  end.
  { rewrite <- (map_id (values f)) at 2. apply map_ext. intros v.
    change ("" +:+ v +:+ "") with (v +:+ ""). rewrite app_empty_r.
    destruct (nonempty v && startswith v "["); reflexivity. }
  rewrite Hmap.
  destruct (begin_addr f =? 0), (size f =? 0), (values f), (truncated f);
    reflexivity.
Qed.

End VectorExtras.

(** ** Further properties of [linear_container_summary_provider] *)

Section LinearExtras.

Context {H : Host}.

(** X11. With colours disabled, a walk from a non-null head renders as plain
    text: the size label of the size member (none when the layout has no
    size member), the values joined by [->], or by [<->] for a doubly linked
    walk, and the same arrow before the dots of a truncated walk. *)
Theorem linear_render_plain (valobj head : SBValue) (values : list string)
    (metadata : gmap string bool) :
  should_use_colors = false ->
  head_of valobj = Some head ->
  get_raw_pointer head <> 0 ->
  traverse head summary_max_items = (values, metadata) ->
  linear_container_summary_provider valobj =
  (let arrow := if default false (metadata !! "doubly_linked") then "<->" else "->" in
   let joined := String.concat (" " +:+ arrow +:+ " ") values in
   match get_child_member_by_names valobj ["count"; "size"; "m_size"; "_size"] with
   | Some m => "size = " +:+ str (GetValueAsUnsigned m)
   | None => ""
   end +:+ ", [" +:+
   (if default false (metadata !! "truncated")
    then joined +:+ " " +:+ arrow +:+ " ..."
    else joined) +:+ "]").
Proof.
  intros Hoff Hh Hnz Htr. unfold linear_container_summary_provider.
  rewrite Hh, (get_child_member_by_names_valid _ _ _ Hh). cbn [negb].
  replace (get_raw_pointer head =? 0) with false by lia.
  rewrite Htr. unfold color. rewrite Hoff. cbv beta iota zeta.
  match goal with
  | |- context [map ?g values] => assert (Hmap : map g values = values)
  end.
  { rewrite <- (map_id values) at 2. apply map_ext. intros v.
    change ("" +:+ v +:+ "") with (v +:+ ""). rewrite app_empty_r.
    destruct (startswith v "["); reflexivity. }
  rewrite Hmap.
  destruct (get_child_member_by_names valobj ["count"; "size"; "m_size"; "_size"])
    as [m|] eqn:Hm.
  - rewrite (get_child_member_by_names_valid _ _ _ Hm).
    destruct (default false (metadata !! "doubly_linked")),
             (default false (metadata !! "truncated")); reflexivity.
  - destruct (default false (metadata !! "doubly_linked")),
             (default false (metadata !! "truncated")); reflexivity.
Qed.

End LinearExtras.

(** ** Instances of the further properties *)

Lemma extract_within_two_levels_witness :
  _extract_vector_end_cap_pointer (Some Demo.two_pointers) = Some (Demo.int_ptr 8240) /\
  exists v : SBValue,
    Some Demo.two_pointers = Some v /\
    (Demo.int_ptr 8240 = v \/
     (exists n : string, In (n, Demo.int_ptr 8240) (children v)) \/
     (exists (n : string) (c : SBValue) (m : string),
        In n wrapper_names /\ In (n, c) (children v) /\
        In m wrapper_names /\ In (m, Demo.int_ptr 8240) (children c))).
Proof.
  split; [reflexivity|].
  exact (extract_within_two_levels (Some Demo.two_pointers) (Demo.int_ptr 8240) eq_refl).
Defined.

Lemma extract_finds_pointer_child_witness :
  IsValid Demo.plain_record = true /\
  In ("limit", Demo.int_ptr 8240) (children Demo.plain_record) /\
  exists p : SBValue, _extract_vector_end_cap_pointer (Some Demo.plain_record) = Some p.
Proof.
  split; [reflexivity|]. split; [right; left; reflexivity|].
  exact (extract_finds_pointer_child Demo.plain_record (Demo.int_ptr 8240) "limit"
           eq_refl (or_intror (or_introl eq_refl)) eq_refl eq_refl).
Defined.

Lemma nonzero_size_invariant_witness :
  exists f : vector_frame,
    Demo.ten_frame 30 = Return f /\ size f <> 0 /\
    0 < element_size f /\ is_pointer (Demo.int_ptr 4096) = true.
Proof.
  eexists. split; [vm_compute; reflexivity|].
  split; [vm_compute; discriminate|].
  match goal with
  | |- 0 < element_size ?f /\ _ =>
      destruct (nonzero_size_invariant (H := Demo.host 30) Demo.ten_ints
                  (Demo.int_ptr 4096) (Demo.int_ptr 4136)
                  (Some (Demo.int_ptr 4160)) f)
        as (_ & Hptr & _ & Hpos & _);
      [vm_compute; reflexivity | vm_compute; discriminate |]
  end.
  split; [exact Hpos | exact Hptr].
Defined.

Lemma size_counts_whole_elements_witness :
  exists f : vector_frame,
    Demo.ten_frame 30 = Return f /\
    size f * element_size f <= 4136 - 4096 /\
    4136 - 4096 < (size f + 1) * element_size f.
Proof.
  eexists. split; [vm_compute; reflexivity|].
  match goal with
  | |- size ?f * _ <= _ /\ _ =>
      apply (size_counts_whole_elements (H := Demo.host 30) Demo.ten_ints
               (Demo.int_ptr 4096) (Demo.int_ptr 4136)
               (Some (Demo.int_ptr 4160)) f)
  end; vm_compute; first [reflexivity | discriminate].
Defined.

Lemma preview_within_storage_witness :
  exists f : vector_frame,
    Demo.ten_frame 3 = Return f /\
    0 <= 2 < Z.min (size f) 3 /\
    4096 <= 4096 + 2 * element_size f /\
    4096 + 2 * element_size f + element_size f <= 4136.
Proof.
  eexists. split; [vm_compute; reflexivity|].
  split; [vm_compute; split; [discriminate | reflexivity]|].
  match goal with
  | |- _ <= _ + _ * element_size ?f /\ _ =>
      apply (preview_within_storage (H := Demo.host 3) Demo.ten_ints
               (Demo.int_ptr 4096) (Demo.int_ptr 4136)
               (Some (Demo.int_ptr 4160)) f 2)
  end; vm_compute; first [reflexivity | split; [discriminate | reflexivity]].
Defined.

Lemma capacity_bounds_size_witness :
  exists f : vector_frame,
    Demo.ten_frame 30 = Return f /\ capacity f = Some 16 /\
    0 <= 16 /\ (4136 <= 4160 -> size f <= 16).
Proof.
  eexists. split; [vm_compute; reflexivity|]. split; [reflexivity|].
  match goal with
  | |- _ /\ (_ -> size ?f <= _) =>
      apply (capacity_bounds_size (H := Demo.host 30) Demo.ten_ints
               (Demo.int_ptr 4096) (Demo.int_ptr 4136) (Demo.int_ptr 4160) f 16)
  end; vm_compute; reflexivity.
Defined.


Lemma unavailable_only_without_cap_witness :
  exists f : vector_frame,
    Demo.ten_frame 0 = Return f /\
    vector_render (H := Demo.host 0) f
    = "size = 10, capacity = 16, data = 0x1000, [[unavailable], ...]".
Proof.
  eexists. split; [vm_compute; reflexivity|].
  match goal with
  | |- vector_render ?f = _ =>
      destruct (unavailable_only_without_cap (H := Demo.host 0) Demo.ten_ints
                  (Demo.int_ptr 4096) (Demo.int_ptr 4136)
                  (Some (Demo.int_ptr 4160)) f) as (_ & Hshape);
      [vm_compute; reflexivity|]
  end.
  destruct Hshape as (summary_head & Heq);
    [vm_compute; reflexivity | vm_compute; discriminate |].
  vm_compute. reflexivity.
Defined.

Lemma vector_render_plain_witness :
  exists f : vector_frame,
    Demo.twelve_frame 30 = Return f /\
    should_use_colors (Host := Demo.host 30) = false /\
    vector_render (H := Demo.host 30) f
    = "size = 12, capacity = 16, data = 0x1000, [0, 10, [unavailable], 30, 40, 50, 60, 70, 80, 90, [unavailable], [unavailable]]".
Proof.
  eexists. split; [vm_compute; reflexivity|]. split; [reflexivity|].
  match goal with
  | |- vector_render ?f = _ =>
      rewrite (vector_render_plain (H := Demo.host 30) f eq_refl)
  end.
  vm_compute. reflexivity.
Defined.

Lemma linear_render_plain_witness :
  should_use_colors (Host := Demo.host 30) = false /\
  head_of (Demo.linked_list (Demo.int_ptr 8192) 3) = Some (Demo.int_ptr 8192) /\
  linear_container_summary_provider (H := Demo.host 30)
    (Demo.linked_list (Demo.int_ptr 8192) 3)
  = "size = 3, [1 -> 2 -> 3]".
Proof.
  split; [reflexivity|]. split; [reflexivity|].
  rewrite (linear_render_plain (H := Demo.host 30)
             (Demo.linked_list (Demo.int_ptr 8192) 3) (Demo.int_ptr 8192)
             ["1"; "2"; "3"] ∅ eq_refl eq_refl
             ltac:(vm_compute; discriminate) eq_refl).
  vm_compute. reflexivity.
Defined.

